(** * Value Diamond: the computation core of the interactive diamond

    The repository ships one React component, [InteractiveDiamond], whose
    body computes everything from four slider positions: the four vertices
    of the diamond, the SVG path through them, a per-slider effect text and
    the structural-integrity score with its description.  The developer
    documentation carries a second listing of the same component, and
    [data/balancePoints.ts] carries the effect texts as a data table.

    Numbers.  A JavaScript number is modelled by a rational [Q], compared
    with [==].  Every quantity the component derives from integer slider
    positions is an integer multiple of 1/4 of small magnitude, for which
    the arithmetic of the source is exact; the theorems below are proved
    for arbitrary rational positions. *)

From Stdlib Require Import ZArith QArith Qabs Qminmax Qround Lqa Lia.
From Stdlib Require Import String DecimalString List Bool.
Import ListNotations.

Open Scope Q_scope.

(** ** The operators of the source on numbers *)

Module JS.

(** [a < b], [a > b], [a >= b] *)
Definition lt (a b : Q) : bool := negb (Qle_bool b a).
Definition gt (a b : Q) : bool := lt b a.
Definition ge (a b : Q) : bool := Qle_bool b a.

(** [Math.abs], [Math.max] (two arguments), [Math.floor] *)
Definition Math_abs (a : Q) : Q := if lt a 0 then - a else a.
Definition Math_max (a b : Q) : Q := if lt a b then b else a.
Definition Math_floor (a : Q) : Q := inject_Z (Qfloor a).

End JS.

(** ** State of the component

    The four [useState] cells.  Each starts at 0 and is written by a slider
    ([min=-50], [max=50], read back through [parseInt]) or by one of the
    two buttons. *)

Record BalanceState : Type := mkState {
  valuePosition : Q;
  directionPosition : Q;
  exchangePosition : Q;
  operatePosition : Q
}.

Definition initialState : BalanceState := mkState 0 0 0 0.

(** A position is in the slider range. *)
Definition inRange (v : Q) : Prop := -50 <= v <= 50.

Definition validState (s : BalanceState) : Prop :=
  inRange (valuePosition s) /\ inRange (directionPosition s) /\
  inRange (exchangePosition s) /\ inRange (operatePosition s).

Definition stateEq (s t : BalanceState) : Prop :=
  valuePosition s == valuePosition t /\
  directionPosition s == directionPosition t /\
  exchangePosition s == exchangePosition t /\
  operatePosition s == operatePosition t.

(** ** Geometry *)

Record Point : Type := mkPoint { x : Q; y : Q }.

Definition pointEq (p q : Point) : Prop := x p == x q /\ y p == y q.

Definition pointEqb (p q : Point) : bool :=
  Qeq_bool (x p) (x q) && Qeq_bool (y p) (y q).

(** An SVG path as the source's template literals spell it: one [M x,y]
    followed by [Q cx,cy x,y] segments. *)
Inductive PathCmd : Type :=
| MoveTo (p : Point)
| QuadTo (c p : Point).

Definition Path : Type := list PathCmd.

Definition cmdEqb (a b : PathCmd) : bool :=
  match a, b with
  | MoveTo p, MoveTo q => pointEqb p q
  | QuadTo c p, QuadTo d q => pointEqb c d && pointEqb p q
  | _, _ => false
  end.

Fixpoint pathEqb (p q : Path) : bool :=
  match p, q with
  | [], [] => true
  | a :: p', b :: q' => cmdEqb a b && pathEqb p' q'
  | _, _ => false
  end.

Definition pathEq (p q : Path) : Prop := pathEqb p q = true.

(** The point a command ends at, and its control point if it has one. *)
Definition cmdTarget (c : PathCmd) : Point :=
  match c with MoveTo p => p | QuadTo _ p => p end.

Definition cmdControl (c : PathCmd) : option Point :=
  match c with MoveTo _ => None | QuadTo c _ => Some c end.

(** The points a path passes through, in drawing order. *)
Definition vertices (p : Path) : list Point := map cmdTarget p.

(** The control points of its curved segments, in drawing order. *)
Fixpoint controls (p : Path) : list Point :=
  match p with
  | [] => []
  | c :: p' =>
      match cmdControl c with
      | Some q => q :: controls p'
      | None => controls p'
      end
  end.

(** A path is one closed loop of quadratic segments when it starts with
    its only [M] and the last segment ends on the start point. *)
Definition allQuad (p : Path) : bool :=
  forallb (fun c => match c with QuadTo _ _ => true | MoveTo _ => false end) p.

Definition closedLoop (p : Path) : bool :=
  match p with
  | MoveTo start :: segs =>
      allQuad segs &&
      match segs with
      | [] => false
      | _ => pointEqb (cmdTarget (last segs (MoveTo start))) start
      end
  | _ => false
  end.

Section Component.

Variable s : BalanceState.

(** Calculate diamond points based on slider values *)
Definition topPoint : Point :=
  mkPoint (400 + valuePosition s * 2) 120.
Definition rightPoint : Point :=
  mkPoint (580 + exchangePosition s) (300 + exchangePosition s / 2).
Definition bottomPoint : Point :=
  mkPoint (400 + operatePosition s * 2) 480.
Definition leftPoint : Point :=
  mkPoint (220 + directionPosition s) (300 + directionPosition s / 2).

(** Get the path string for the diamond *)
Definition diamondPath : Path :=
  [ MoveTo (mkPoint (x topPoint) (y topPoint));
    QuadTo (mkPoint (x topPoint + 15) ((y topPoint + y rightPoint) / 2))
           (mkPoint (x rightPoint) (y rightPoint));
    QuadTo (mkPoint ((x rightPoint + x bottomPoint) / 2) (y rightPoint + 50))
           (mkPoint (x bottomPoint) (y bottomPoint));
    QuadTo (mkPoint (x bottomPoint - 30) ((y bottomPoint + y leftPoint) / 2))
           (mkPoint (x leftPoint) (y leftPoint));
    QuadTo (mkPoint ((x leftPoint + x topPoint) / 2) (y leftPoint - 50))
           (mkPoint (x topPoint) (y topPoint)) ].

End Component.

(** The ideal diamond path *)
Definition idealDiamondPath : Path :=
  [ MoveTo (mkPoint 400 120);
    QuadTo (mkPoint 415 210) (mkPoint 580 300);
    QuadTo (mkPoint 490 350) (mkPoint 400 480);
    QuadTo (mkPoint 310 350) (mkPoint 220 300);
    QuadTo (mkPoint 385 210) (mkPoint 400 120) ].

(** ** Effect texts and scoring *)

Open Scope string_scope.

Section Scoring.

Variable s : BalanceState.

(** Get effect description based on slider positions *)
Definition getValueEffect : string :=
  if JS.lt (valuePosition s) (-30) then
    "Heavy Wall Street focus. Investors happy but customers may feel neglected."
  else if JS.gt (valuePosition s) 30 then
    "Strong customer value focus, but Wall Street may not understand strategy."
  else
    "Balanced value proposition between investor and customer needs.".

Definition getDirectionEffect : string :=
  if JS.lt (directionPosition s) (-30) then
    "Strategy too investor-focused. Employee engagement suffering."
  else if JS.gt (directionPosition s) 30 then
    "Employee-driven strategy may lack market alignment."
  else
    "Strategic alignment balances investor expectations and employee capabilities.".

Definition getExchangeEffect : string :=
  if JS.lt (exchangePosition s) (-30) then
    "Customer focus without market context. May miss emerging trends."
  else if JS.gt (exchangePosition s) 30 then
    "Market-driven but not addressing specific customer needs."
  else
    "Value exchange optimized between customer needs and market conditions.".

Definition getOperateEffect : string :=
  if JS.lt (operatePosition s) (-30) then
    "Operating model too employee-centric, disconnected from market realities."
  else if JS.gt (operatePosition s) 30 then
    "Market-driven operations without employee engagement."
  else
    "Operating model aligns employee capabilities with market dynamics.".

(** Calculate diamond health score *)
Definition calculateHealth : Q :=
  let balanceScore :=
    100 - (JS.Math_abs (valuePosition s) +
           JS.Math_abs (directionPosition s) +
           JS.Math_abs (exchangePosition s) +
           JS.Math_abs (operatePosition s)) / 2 in
  JS.Math_max 0 balanceScore.

End Scoring.

(** The branches of [getHealthDescription] after [health] is bound. *)
Definition healthText (health : Q) : string :=
  if JS.ge health 80 then
    "Excellent structural integrity! The architecture is aligned and positioned for growth."
  else if JS.ge health 60 then
    "Good integrity. Minor adjustments could improve commercial effectiveness."
  else if JS.ge health 40 then
    "Moderate structural weaknesses. Organization experiencing tension in key areas."
  else if JS.ge health 20 then
    "Significant structural issues. Organization likely experiencing dysfunction."
  else
    "Critical structural failure. Organization at risk of collapse.".

(** Get health description *)
Definition getHealthDescription (s : BalanceState) : string :=
  let health := calculateHealth s in
  healthText health.

(** ** The two buttons

    [Math.random()] returns a number in the half-open interval from 0 to 1;
    a click of "Stress Test" consumes four of them, one per setter call, in
    the order value, direction, exchange, operate. *)

Definition isDraw (r : Q) : Prop := 0 <= r /\ r < 1.

Record Draws : Type := mkDraws { draw1 : Q; draw2 : Q; draw3 : Q; draw4 : Q }.

Definition validDraws (d : Draws) : Prop :=
  isDraw (draw1 d) /\ isDraw (draw2 d) /\ isDraw (draw3 d) /\ isDraw (draw4 d).

(** "Ideal Form" *)
Definition idealForm (_ : BalanceState) : BalanceState := mkState 0 0 0 0.

(** "Stress Test", as in the component file:
    [Math.floor(Math.random() * 101) - 50] *)
Definition stressValue (r : Q) : Q := JS.Math_floor (r * 101) - 50.

Definition stressTest (d : Draws) (_ : BalanceState) : BalanceState :=
  mkState (stressValue (draw1 d)) (stressValue (draw2 d))
          (stressValue (draw3 d)) (stressValue (draw4 d)).

(** The listing of the component in the developer documentation differs in
    this handler only: [Math.floor(Math.random() * 100 - 50)]. *)
Module DocsListing.

Definition stressValue (r : Q) : Q := JS.Math_floor (r * 100 - 50).

Definition stressTest (d : Draws) (_ : BalanceState) : BalanceState :=
  mkState (stressValue (draw1 d)) (stressValue (draw2 d))
          (stressValue (draw3 d)) (stressValue (draw4 d)).

End DocsListing.

(** ** data/balancePoints.ts *)

Inductive Key : Type := value | direction | exchange | operate.

Record Effects : Type := mkEffects {
  low : string;
  high : string;
  balanced : string
}.

Record BalancePoint : Type := mkBalancePoint {
  key : Key;
  label : string;
  stakeholders : string;
  description : string;
  effects : Effects
}.

Definition balancePoints : list BalancePoint :=
  [ {| key := value;
       label := "VALUE";
       stakeholders := "Wall Street ↔ Customers";
       description := "Balance between investor expectations and customer needs.";
       effects := {|
         low := "Heavy Wall Street focus. Investors happy but customers may feel neglected.";
         high := "Strong customer value focus, but Wall Street may not understand strategy.";
         balanced := "Balanced value proposition between investor and customer needs." |} |};
    {| key := direction;
       label := "DIRECTION";
       stakeholders := "Wall Street ↔ Employees";
       description := "Alignment of strategic direction between investors and employees.";
       effects := {|
         low := "Strategy too investor-focused. Employee engagement suffering.";
         high := "Employee-driven strategy may lack market alignment.";
         balanced := "Strategic alignment balances investor expectations and employee capabilities." |} |};
    {| key := exchange;
       label := "EXCHANGE";
       stakeholders := "Customers ↔ Market";
       description := "Balance between customer focus and market trends.";
       effects := {|
         low := "Customer focus without market context. May miss emerging trends.";
         high := "Market-driven but not addressing specific customer needs.";
         balanced := "Value exchange optimized between customer needs and market conditions." |} |};
    {| key := operate;
       label := "OPERATE";
       stakeholders := "Employees ↔ Market";
       description := "How operational capabilities align employees with market dynamics.";
       effects := {|
         low := "Operating model too employee-centric, disconnected from market realities.";
         high := "Market-driven operations without employee engagement.";
         balanced := "Operating model aligns employee capabilities with market dynamics." |} |} ].

(** ** The data-driven reading of the effect texts

    The design notes replace the four inline functions by one band
    classifier and a lookup in the table above.  These definitions follow
    that description; they are compared with the inline functions below. *)

Inductive Band : Type := BandLow | BandBalanced | BandHigh.

(** Threshold at 30 on either side: below -30 is low, above 30 is high,
    otherwise balanced. *)
Definition classifyBand (fieldValue : Q) : Band :=
  if JS.lt fieldValue (-30) then BandLow
  else if JS.gt fieldValue 30 then BandHigh
  else BandBalanced.

Definition keyEqb (a b : Key) : bool :=
  match a, b with
  | value, value | direction, direction
  | exchange, exchange | operate, operate => true
  | _, _ => false
  end.

Definition specOf (k : Key) : option BalancePoint :=
  find (fun bp => keyEqb (key bp) k) balancePoints.

Definition bandText (e : Effects) (b : Band) : string :=
  match b with
  | BandLow => low e
  | BandHigh => high e
  | BandBalanced => balanced e
  end.

Definition fieldOf (k : Key) (s : BalanceState) : Q :=
  match k with
  | value => valuePosition s
  | direction => directionPosition s
  | exchange => exchangePosition s
  | operate => operatePosition s
  end.

Definition effectFromTable (k : Key) (s : BalanceState) : option string :=
  match specOf k with
  | Some bp => Some (bandText (effects bp) (classifyBand (fieldOf k s)))
  | None => None
  end.

(** The inline function the component uses for a field. *)
Definition inlineEffect (k : Key) : BalanceState -> string :=
  match k with
  | value => getValueEffect
  | direction => getDirectionEffect
  | exchange => getExchangeEffect
  | operate => getOperateEffect
  end.

(** The integrity formula in the words of the design: the sum of the
    absolute deviations is halved, subtracted from 100 and clamped at 0. *)
Definition sumAbs (s : BalanceState) : Q :=
  Qabs (valuePosition s) + Qabs (directionPosition s) +
  Qabs (exchangePosition s) + Qabs (operatePosition s).

Definition integrityFormula (s : BalanceState) : Q :=
  Qmax 0 (100 - sumAbs s / 2).

Open Scope Q_scope.

(** The setter of the [useState] cell of a field. *)
Definition setPosition (k : Key) (v : Q) (s : BalanceState) : BalanceState :=
  match k with
  | value =>
      mkState v (directionPosition s) (exchangePosition s) (operatePosition s)
  | direction =>
      mkState (valuePosition s) v (exchangePosition s) (operatePosition s)
  | exchange =>
      mkState (valuePosition s) (directionPosition s) v (operatePosition s)
  | operate =>
      mkState (valuePosition s) (directionPosition s) (exchangePosition s) v
  end.

(** ** Vocabulary of the statements *)

Fixpoint pointsEqb (ps qs : list Point) : bool :=
  match ps, qs with
  | [], [] => true
  | p :: ps', q :: qs' => pointEqb p q && pointsEqb ps' qs'
  | _, _ => false
  end.

(** The three [return] statements of the inline effect function of each
    field, in the order of the bands they answer for. *)
Definition inlineTexts (k : Key) : Effects :=
  match k with
  | value => {|
      low := "Heavy Wall Street focus. Investors happy but customers may feel neglected.";
      high := "Strong customer value focus, but Wall Street may not understand strategy.";
      balanced := "Balanced value proposition between investor and customer needs." |}
  | direction => {|
      low := "Strategy too investor-focused. Employee engagement suffering.";
      high := "Employee-driven strategy may lack market alignment.";
      balanced := "Strategic alignment balances investor expectations and employee capabilities." |}
  | exchange => {|
      low := "Customer focus without market context. May miss emerging trends.";
      high := "Market-driven but not addressing specific customer needs.";
      balanced := "Value exchange optimized between customer needs and market conditions." |}
  | operate => {|
      low := "Operating model too employee-centric, disconnected from market realities.";
      high := "Market-driven operations without employee engagement.";
      balanced := "Operating model aligns employee capabilities with market dynamics." |}
  end.

(** The values each band stands for. *)
Definition bandRange (b : Band) (v : Q) : Prop :=
  match b with
  | BandLow => v < -30
  | BandHigh => 30 < v
  | BandBalanced => -30 <= v /\ v <= 30
  end.

(** The five tiers of the health description, the text each one shows and
    the scores it stands for. *)
Inductive Tier : Type := Excellent | Good | Moderate | Significant | Critical.

Definition tierText (t : Tier) : string :=
  match t with
  | Excellent =>
    "Excellent structural integrity! The architecture is aligned and positioned for growth."
  | Good =>
    "Good integrity. Minor adjustments could improve commercial effectiveness."
  | Moderate =>
    "Moderate structural weaknesses. Organization experiencing tension in key areas."
  | Significant =>
    "Significant structural issues. Organization likely experiencing dysfunction."
  | Critical =>
    "Critical structural failure. Organization at risk of collapse."
  end.

Definition tierRange (t : Tier) (h : Q) : Prop :=
  match t with
  | Excellent => 80 <= h /\ h <= 100
  | Good => 60 <= h /\ h < 80
  | Moderate => 40 <= h /\ h < 60
  | Significant => 20 <= h /\ h < 40
  | Critical => 0 <= h /\ h < 20
  end.

(** A draw that the component file's "Stress Test" turns into [k]: the
    middle of the draws that do. *)
Definition drawFor (k : Z) : Q := (2 * (inject_Z k + 50) + 1) / 202.

(** ** What the component renders from the state *)

(** The vertex a slider moves. *)
Definition vertexOf (k : Key) : BalanceState -> Point :=
  match k with
  | value => topPoint
  | exchange => rightPoint
  | operate => bottomPoint
  | direction => leftPoint
  end.

(** [<svg viewBox="0 0 800 600">]: the points the drawing area holds. *)
Definition insideViewBox (p : Point) : Prop :=
  0 <= x p /\ x p <= 800 /\ 0 <= y p /\ y p <= 600.

(** The marker of a balance point: three [<circle>] elements centred on
    the vertex, of radius 16, 12 and 5. *)
Record Circle : Type := mkCircle { cx : Q; cy : Q; r : Q }.

Definition marker (p : Point) : list Circle :=
  [ mkCircle (x p) (y p) 16; mkCircle (x p) (y p) 12; mkCircle (x p) (y p) 5 ].

(** The markers in the order of the markup: top, right, bottom, left. *)
Definition balancePointMarkers (s : BalanceState) : list Circle :=
  marker (topPoint s) ++ marker (rightPoint s) ++
  marker (bottomPoint s) ++ marker (leftPoint s).

Definition circleInsideViewBox (c : Circle) : Prop :=
  0 <= cx c - r c /\ cx c + r c <= 800 /\
  0 <= cy c - r c /\ cy c + r c <= 600.

(** The white cover of the integrity bar:
    [width: (100 - calculateHealth())%], [marginLeft: calculateHealth()%]. *)
Record GaugeStyle : Type := mkGaugeStyle { width : Q; marginLeft : Q }.

Definition gaugeStyle (s : BalanceState) : GaugeStyle :=
  {| width := 100 - calculateHealth s; marginLeft := calculateHealth s |}.

(** [Number.prototype.toFixed(0)]: the digits of the integer nearest to the
    number, the larger one when two are equally near, after the sign of a
    negative number. *)
Definition nearestInteger (a : Q) : Z := Qfloor (a + (1 # 2)).

Definition toFixed0 (a : Q) : string :=
  if JS.lt a 0 then
    "-" ++ NilZero.string_of_int (Z.to_int (nearestInteger (- a)))
  else
    NilZero.string_of_int (Z.to_int (nearestInteger a)).

(** [Structural Integrity: {calculateHealth().toFixed(0)}%] *)
Definition integrityLabel (s : BalanceState) : string :=
  "Structural Integrity: " ++ toFixed0 (calculateHealth s) ++ "%".

(** The percentage the label shows. *)
Definition shownPercent (s : BalanceState) : Z :=
  nearestInteger (calculateHealth s).

(** ** The interactions

    A range input reports the decimal numeral of an integer, which
    [parseInt(e.target.value, 10)] reads back before the setter of the
    field stores it; the event carries that integer.  The two buttons are
    the handlers above. *)
Inductive Event : Type :=
| SliderChange (k : Key) (z : Z)
| IdealFormClick
| StressTestClick (d : Draws).

Definition handle (ev : Event) (s : BalanceState) : BalanceState :=
  match ev with
  | SliderChange k z => setPosition k (inject_Z z) s
  | IdealFormClick => idealForm s
  | StressTestClick d => stressTest d s
  end.

(** What the browser can deliver: a slider value between [min="-50"] and
    [max="50"], draws of [Math.random()]. *)
Definition eventOk (ev : Event) : Prop :=
  match ev with
  | SliderChange _ z => (-50 <= z <= 50)%Z
  | IdealFormClick => True
  | StressTestClick d => validDraws d
  end.

(** The state after a sequence of interactions, oldest first. *)
Definition run (evs : list Event) (s : BalanceState) : BalanceState :=
  fold_left (fun st ev => handle ev st) evs s.

Definition isInteger (v : Q) : Prop := exists z : Z, v == inject_Z z.

Definition integerState (s : BalanceState) : Prop :=
  isInteger (valuePosition s) /\ isInteger (directionPosition s) /\
  isInteger (exchangePosition s) /\ isInteger (operatePosition s).

(** Rank of a tier, worst first. *)
Definition tierRank (t : Tier) : nat :=
  match t with
  | Critical => 0 | Significant => 1 | Moderate => 2 | Good => 3 | Excellent => 4
  end%nat.

(** How many of the four sliders are off the centre. *)
Definition offCentre (s : BalanceState) : nat :=
  List.length
    (filter (fun v => negb (Qeq_bool v 0))
       [valuePosition s; directionPosition s;
        exchangePosition s; operatePosition s]).

(** * Properties *)

(** ** The operators *)

Lemma lt_true (a b : Q) : JS.lt a b = true <-> a < b.
Proof.
  unfold JS.lt. rewrite negb_true_iff.
  split; intro H.
  - apply Qnot_le_lt. intro L. apply Qle_bool_iff in L. congruence.
  - destruct (Qle_bool b a) eqn:E; [| reflexivity].
    apply Qle_bool_iff in E. exfalso. apply (Qlt_not_le _ _ H E).
Qed.

Lemma lt_false (a b : Q) : JS.lt a b = false <-> b <= a.
Proof.
  unfold JS.lt. rewrite negb_false_iff. apply Qle_bool_iff.
Qed.

Lemma gt_true (a b : Q) : JS.gt a b = true <-> b < a.
Proof. apply lt_true. Qed.

Lemma gt_false (a b : Q) : JS.gt a b = false <-> a <= b.
Proof. apply lt_false. Qed.

Lemma ge_true (a b : Q) : JS.ge a b = true <-> b <= a.
Proof. apply Qle_bool_iff. Qed.

Lemma ge_false (a b : Q) : JS.ge a b = false <-> a < b.
Proof.
  unfold JS.ge. split; intro H.
  - apply Qnot_le_lt. intro L. apply Qle_bool_iff in L. congruence.
  - destruct (Qle_bool b a) eqn:E; [| reflexivity].
    apply Qle_bool_iff in E. exfalso. apply (Qlt_not_le _ _ H E).
Qed.

(** Case analysis on a comparison of the source, leaving the order fact. *)
Ltac split_lt a b :=
  let E := fresh "E" in
  destruct (JS.lt a b) eqn:E;
  [ apply lt_true in E | apply lt_false in E ].

Ltac split_ge a b :=
  let E := fresh "E" in
  destruct (JS.ge a b) eqn:E;
  [ apply ge_true in E | apply ge_false in E ].

(** Linear arithmetic with the halvings of the source written as
    multiplications by 1/2. *)
Ltac qlra :=
  unfold Qdiv in *; change (/ 2) with (1 # 2) in *; lra.

Lemma Math_abs_nonneg (a : Q) : 0 <= JS.Math_abs a.
Proof. unfold JS.Math_abs. split_lt a 0; lra. Qed.

Lemma Math_abs_Qabs (a : Q) : JS.Math_abs a == Qabs a.
Proof.
  unfold JS.Math_abs. split_lt a 0.
  - symmetry. apply Qabs_neg. lra.
  - symmetry. apply Qabs_pos. exact E.
Qed.

Lemma Math_abs_zero (a : Q) : JS.Math_abs a == 0 <-> a == 0.
Proof. unfold JS.Math_abs. split_lt a 0; split; intro H; lra. Qed.

Lemma Math_abs_inRange (a : Q) : inRange a -> JS.Math_abs a <= 50.
Proof. unfold inRange, JS.Math_abs. intros [L U]. split_lt a 0; lra. Qed.

Lemma Math_max_Qmax (a b : Q) : JS.Math_max a b == Qmax a b.
Proof.
  unfold JS.Math_max. split_lt a b.
  - symmetry. apply Q.max_r. lra.
  - symmetry. apply Q.max_l. exact E.
Qed.

Lemma pointEqb_true (p q : Point) : pointEqb p q = true <-> pointEq p q.
Proof.
  unfold pointEqb, pointEq. rewrite andb_true_iff, !Qeq_bool_iff. tauto.
Qed.

(** ** Geometry *)

(** C3.  For every state the four vertices are
    top = (400 + 2*value, 120), right = (580 + exchange, 300 + exchange/2),
    bottom = (400 + 2*operate, 480), left = (220 + direction, 300 + direction/2);
    the all-zero state gives (400,120), (580,300), (400,480), (220,300), and
    value = 40 with the rest 0 gives top = (480,120). *)
Theorem vertex_formulas :
  (forall s : BalanceState,
     pointEq (topPoint s) (mkPoint (400 + 2 * valuePosition s) 120) /\
     pointEq (rightPoint s)
       (mkPoint (580 + exchangePosition s) (300 + exchangePosition s / 2)) /\
     pointEq (bottomPoint s) (mkPoint (400 + 2 * operatePosition s) 480) /\
     pointEq (leftPoint s)
       (mkPoint (220 + directionPosition s) (300 + directionPosition s / 2))) /\
  (pointEq (topPoint (mkState 0 0 0 0)) (mkPoint 400 120) /\
   pointEq (rightPoint (mkState 0 0 0 0)) (mkPoint 580 300) /\
   pointEq (bottomPoint (mkState 0 0 0 0)) (mkPoint 400 480) /\
   pointEq (leftPoint (mkState 0 0 0 0)) (mkPoint 220 300)) /\
  pointEq (topPoint (mkState 40 0 0 0)) (mkPoint 480 120).
Proof.
  split; [| split].
  - intros [v d e o]. unfold pointEq; cbn. repeat split; lra.
  - repeat split; reflexivity.
  - split; reflexivity.
Qed.

(** C4.  For every state the dynamic path is one closed loop of four
    quadratic segments through top, right, bottom, left and back to top,
    with control points (top.x + 15, (top.y + right.y)/2),
    ((right.x + bottom.x)/2, right.y + 50),
    (bottom.x - 30, (bottom.y + left.y)/2) and
    ((left.x + top.x)/2, left.y - 50), in that order. *)
Theorem diamondPath_shape (s : BalanceState) :
  let top := topPoint s in
  let right := rightPoint s in
  let bottom := bottomPoint s in
  let left := leftPoint s in
  closedLoop (diamondPath s) = true /\
  vertices (diamondPath s) = [top; right; bottom; left; top] /\
  controls (diamondPath s) =
    [ mkPoint (x top + 15) ((y top + y right) / 2);
      mkPoint ((x right + x bottom) / 2) (y right + 50);
      mkPoint (x bottom - 30) ((y bottom + y left) / 2);
      mkPoint ((x left + x top) / 2) (y left - 50) ] /\
  diamondPath s =
    [ MoveTo top;
      QuadTo (mkPoint (x top + 15) ((y top + y right) / 2)) right;
      QuadTo (mkPoint ((x right + x bottom) / 2) (y right + 50)) bottom;
      QuadTo (mkPoint (x bottom - 30) ((y bottom + y left) / 2)) left;
      QuadTo (mkPoint ((x left + x top) / 2) (y left - 50)) top ].
Proof.
  cbv zeta. repeat split.
  cbn. apply andb_true_iff. split; apply Qeq_bool_iff; reflexivity.
Qed.

(** C1.  The stored ideal path against the dynamic path of the all-zero
    state: both pass through the same four vertices and share the control
    points of the edges top-right and right-bottom, but the dynamic path
    bends bottom-left at (370,390) and left-top at (310,250) where the
    stored path has (310,350) and (385,210); the two paths differ. *)
Theorem idealDiamondPath_differs_at_zero :
  pointsEqb (vertices (diamondPath (mkState 0 0 0 0)))
            (vertices idealDiamondPath) = true /\
  pointsEqb (controls (diamondPath (mkState 0 0 0 0)))
            [mkPoint 415 210; mkPoint 490 350; mkPoint 370 390; mkPoint 310 250]
    = true /\
  controls idealDiamondPath =
    [mkPoint 415 210; mkPoint 490 350; mkPoint 310 350; mkPoint 385 210] /\
  pathEqb (diamondPath (mkState 0 0 0 0)) idealDiamondPath = false.
Proof. repeat split; vm_compute; reflexivity. Qed.

(** No position of the sliders brings the dynamic path onto the stored
    one: the end of the segment into the bottom vertex asks for
    [operatePosition = 0], the control point of the next one for -30. *)
Lemma diamondPath_never_ideal (s : BalanceState) :
  pathEqb (diamondPath s) idealDiamondPath = false.
Proof.
  destruct (pathEqb (diamondPath s) idealDiamondPath) eqn:H; [| reflexivity].
  exfalso. destruct s as [v d e o]. cbn in H.
  repeat (apply andb_true_iff in H; destruct H as [? H]).
  repeat match goal with
         | A : pointEqb _ _ = true |- _ =>
             apply pointEqb_true in A; destruct A as [? ?]
         | A : _ && _ = true |- _ =>
             apply andb_true_iff in A; destruct A as [? ?]
         end.
  cbn in *. lra.
Qed.

(** ** Integrity score *)

Lemma sumAbs_Math_abs (s : BalanceState) :
  JS.Math_abs (valuePosition s) + JS.Math_abs (directionPosition s) +
  JS.Math_abs (exchangePosition s) + JS.Math_abs (operatePosition s)
  == sumAbs s.
Proof. unfold sumAbs. rewrite !Math_abs_Qabs. reflexivity. Qed.

Lemma sumAbs_nonneg (s : BalanceState) : 0 <= sumAbs s.
Proof.
  rewrite <- sumAbs_Math_abs.
  pose proof (Math_abs_nonneg (valuePosition s)).
  pose proof (Math_abs_nonneg (directionPosition s)).
  pose proof (Math_abs_nonneg (exchangePosition s)).
  pose proof (Math_abs_nonneg (operatePosition s)).
  qlra.
Qed.

Lemma sumAbs_valid (s : BalanceState) : validState s -> sumAbs s <= 200.
Proof.
  intros (Hv & Hd & He & Ho). rewrite <- sumAbs_Math_abs.
  apply Math_abs_inRange in Hv, Hd, He, Ho. qlra.
Qed.

(** The score as a case split on the halved sum, for any state. *)
Lemma calculateHealth_cases (s : BalanceState) :
  (sumAbs s <= 200 /\ calculateHealth s == 100 - sumAbs s / 2) \/
  (200 < sumAbs s /\ calculateHealth s == 0).
Proof.
  unfold calculateHealth; cbv zeta. unfold JS.Math_max.
  pose proof (sumAbs_Math_abs s) as Hs.
  split_lt 0
    (100 - (JS.Math_abs (valuePosition s) + JS.Math_abs (directionPosition s) +
            JS.Math_abs (exchangePosition s) + JS.Math_abs (operatePosition s)) / 2).
  - left. split; qlra.
  - destruct (Qlt_le_dec 200 (sumAbs s)) as [G | G].
    + right. split; [exact G | reflexivity].
    + left. split; [exact G | qlra].
Qed.

Lemma integrityFormula_cases (s : BalanceState) :
  (sumAbs s <= 200 /\ integrityFormula s == 100 - sumAbs s / 2) \/
  (200 < sumAbs s /\ integrityFormula s == 0).
Proof.
  unfold integrityFormula.
  destruct (Q.max_spec 0 (100 - sumAbs s / 2)) as [[L E] | [L E]].
  - left. split; [qlra | exact E].
  - destruct (Qlt_le_dec 200 (sumAbs s)) as [G | G].
    + right. split; [exact G | exact E].
    + left. split; [exact G | qlra].
Qed.

Lemma calculateHealth_formula_any (s : BalanceState) :
  calculateHealth s == integrityFormula s.
Proof.
  destruct (calculateHealth_cases s) as [[L E] | [L E]];
  destruct (integrityFormula_cases s) as [[L' E'] | [L' E']]; qlra.
Qed.

Lemma calculateHealth_bounds_any (s : BalanceState) :
  0 <= calculateHealth s <= 100.
Proof.
  pose proof (sumAbs_nonneg s).
  destruct (calculateHealth_cases s) as [[L E] | [L E]]; qlra.
Qed.

(** C2.  On a state with all four fields in [-50,50] the score is exactly
    max(0, 100 - (|value|+|direction|+|exchange|+|operate|)/2), where the
    clamp never fires; it is 100 on the all-zero state and 0 on
    (50,50,50,50). *)
Theorem calculateHealth_formula (s : BalanceState) (V : validState s) :
  calculateHealth s == integrityFormula s /\
  calculateHealth s == 100 - sumAbs s / 2 /\
  calculateHealth (mkState 0 0 0 0) == 100 /\
  calculateHealth (mkState 50 50 50 50) == 0.
Proof.
  split; [apply calculateHealth_formula_any |].
  split; [| split; reflexivity].
  pose proof (sumAbs_valid s V).
  destruct (calculateHealth_cases s) as [[L E] | [L E]]; qlra.
Qed.

Lemma calculateHealth_formula_witness :
  validState (mkState (-50) 0 0 0) /\
  calculateHealth (mkState (-50) 0 0 0) == 75.
Proof.
  assert (V : validState (mkState (-50) 0 0 0)).
  { unfold validState, inRange; cbn. repeat split; qlra. }
  split; [exact V |].
  destruct (calculateHealth_formula (mkState (-50) 0 0 0) V) as (_ & E & _).
  rewrite E. reflexivity.
Defined.

(** C7.  On a state with all four fields in [-50,50] the score lies
    between 0 and 100. *)
Theorem calculateHealth_bounds (s : BalanceState) (V : validState s) :
  0 <= calculateHealth s /\ calculateHealth s <= 100.
Proof. apply calculateHealth_bounds_any. Qed.

Lemma calculateHealth_bounds_witness :
  validState (mkState 50 (-50) 17 (-3)) /\
  0 <= calculateHealth (mkState 50 (-50) 17 (-3)) /\
  calculateHealth (mkState 50 (-50) 17 (-3)) <= 100.
Proof.
  assert (V : validState (mkState 50 (-50) 17 (-3))).
  { unfold validState, inRange; cbn. repeat split; qlra. }
  split; [exact V | exact (calculateHealth_bounds _ V)].
Defined.

Lemma sumAbs_zero (s : BalanceState) :
  sumAbs s == 0 <-> stateEq s (mkState 0 0 0 0).
Proof.
  rewrite <- sumAbs_Math_abs. unfold stateEq; cbn.
  pose proof (Math_abs_nonneg (valuePosition s)).
  pose proof (Math_abs_nonneg (directionPosition s)).
  pose proof (Math_abs_nonneg (exchangePosition s)).
  pose proof (Math_abs_nonneg (operatePosition s)).
  rewrite <- (Math_abs_zero (valuePosition s)).
  rewrite <- (Math_abs_zero (directionPosition s)).
  rewrite <- (Math_abs_zero (exchangePosition s)).
  rewrite <- (Math_abs_zero (operatePosition s)).
  split; [intro E; repeat split; qlra | intros (A & B & C & D); qlra].
Qed.

Lemma calculateHealth_antitone (s t : BalanceState) :
  sumAbs s <= sumAbs t -> calculateHealth t <= calculateHealth s.
Proof.
  intro L.
  destruct (calculateHealth_cases s) as [[Ls Es] | [Ls Es]];
  destruct (calculateHealth_cases t) as [[Lt Et] | [Lt Et]]; qlra.
Qed.

Lemma calculateHealth_100 (s : BalanceState) :
  calculateHealth s == 100 <-> stateEq s (mkState 0 0 0 0).
Proof.
  rewrite <- sumAbs_zero. pose proof (sumAbs_nonneg s).
  destruct (calculateHealth_cases s) as [[L E] | [L E]]; split; intro; qlra.
Qed.

(** C8.  The score never increases with the sum of the absolute
    deviations: of two valid states the one with the smaller (or equal)
    sum has the greater (or equal) score; and the score of a valid state
    is 100 exactly when its four fields are all 0. *)
Theorem calculateHealth_monotone (s t : BalanceState)
    (Vs : validState s) (Vt : validState t) :
  (sumAbs s <= sumAbs t -> calculateHealth s >= calculateHealth t) /\
  (calculateHealth s == 100 <-> stateEq s (mkState 0 0 0 0)).
Proof.
  split; [apply calculateHealth_antitone | apply calculateHealth_100].
Qed.

Lemma calculateHealth_monotone_witness :
  validState (mkState 10 0 (-5) 0) /\ validState (mkState 20 (-30) 0 1) /\
  sumAbs (mkState 10 0 (-5) 0) <= sumAbs (mkState 20 (-30) 0 1) /\
  calculateHealth (mkState 10 0 (-5) 0) >= calculateHealth (mkState 20 (-30) 0 1).
Proof.
  assert (Vs : validState (mkState 10 0 (-5) 0)).
  { unfold validState, inRange; cbn. repeat split; qlra. }
  assert (Vt : validState (mkState 20 (-30) 0 1)).
  { unfold validState, inRange; cbn. repeat split; qlra. }
  assert (L : sumAbs (mkState 10 0 (-5) 0) <= sumAbs (mkState 20 (-30) 0 1)).
  { vm_compute. discriminate. }
  split; [exact Vs |]. split; [exact Vt |]. split; [exact L |].
  exact (proj1 (calculateHealth_monotone _ _ Vs Vt) L).
Defined.

(** ** Effect texts *)

Ltac band_case H :=
  first [ reflexivity | discriminate | lra | split; lra
        | destruct H as [? ?]; lra ].

Lemma classifyBand_range (v : Q) (b : Band) :
  classifyBand v = b <-> bandRange b v.
Proof.
  unfold classifyBand, JS.gt.
  split_lt v (-30); [| split_lt 30 v];
    destruct b; cbn; split; intro H; band_case H.
Qed.

Lemma inlineEffect_classify (k : Key) (s : BalanceState) :
  inlineEffect k s = bandText (inlineTexts k) (classifyBand (fieldOf k s)).
Proof.
  destruct k; cbn [inlineEffect fieldOf inlineTexts];
    unfold getValueEffect, getDirectionEffect, getExchangeEffect,
           getOperateEffect, classifyBand;
    match goal with
    | |- context [JS.lt ?a ?b] => destruct (JS.lt a b)
    end; try reflexivity;
    match goal with
    | |- context [JS.gt ?a ?b] => destruct (JS.gt a b)
    end; reflexivity.
Qed.

Lemma inlineTexts_distinct (k : Key) (b c : Band) :
  bandText (inlineTexts k) b = bandText (inlineTexts k) c -> b = c.
Proof. destruct k, b, c; cbn; intro H; first [reflexivity | discriminate H]. Qed.

Lemma classifyBand_compat (v w : Q) : v == w -> classifyBand v = classifyBand w.
Proof.
  intro E. symmetry. apply classifyBand_range.
  destruct (classifyBand v) eqn:B; apply classifyBand_range in B;
    cbn [bandRange] in *;
    first [ lra | destruct B as [B1 B2]; split; lra ].
Qed.

(** C5.  Each inline effect function answers with its low text exactly when
    its field is below -30, with its high text exactly when the field is
    above 30, and with its balanced text otherwise; 30 and -30 are balanced,
    31 is high and -31 is low; and the answer for a field depends on that
    field's value alone. *)
Theorem inlineEffect_bands :
  (forall (k : Key) (s : BalanceState) (b : Band),
     inlineEffect k s = bandText (inlineTexts k) b <->
     bandRange b (fieldOf k s)) /\
  (forall (k : Key) (s : BalanceState),
     inlineEffect k (setPosition k 30 s) = balanced (inlineTexts k) /\
     inlineEffect k (setPosition k (-30) s) = balanced (inlineTexts k) /\
     inlineEffect k (setPosition k 31 s) = high (inlineTexts k) /\
     inlineEffect k (setPosition k (-31) s) = low (inlineTexts k) /\
     inlineEffect k (setPosition k 0 s) = balanced (inlineTexts k)) /\
  (forall (k : Key) (s t : BalanceState),
     fieldOf k s == fieldOf k t -> inlineEffect k s = inlineEffect k t).
Proof.
  split; [| split].
  - intros k s b. rewrite inlineEffect_classify.
    rewrite <- classifyBand_range. split.
    + apply inlineTexts_distinct.
    + intros ->. reflexivity.
  - intros k s. destruct k; repeat split; reflexivity.
  - intros k s t E. rewrite !inlineEffect_classify.
    rewrite (classifyBand_compat _ _ E). reflexivity.
Qed.

Lemma inlineEffect_bands_witness :
  fieldOf exchange (mkState 0 0 31 0) == fieldOf exchange (mkState 50 (-50) 31 7) /\
  inlineEffect exchange (mkState 0 0 31 0) =
  inlineEffect exchange (mkState 50 (-50) 31 7).
Proof.
  assert (E : fieldOf exchange (mkState 0 0 31 0) ==
              fieldOf exchange (mkState 50 (-50) 31 7)) by reflexivity.
  split; [exact E |].
  exact (proj2 (proj2 inlineEffect_bands) exchange _ _ E).
Defined.

(** C10.  For every field and every value the inline effect function
    returns the text stored in that field's record of [balancePoints]
    under the band of the value: the four inline functions are the generic
    band classifier followed by the lookup in the table. *)
Theorem inlineEffect_is_table_lookup (s : BalanceState) :
  effectFromTable value s = Some (getValueEffect s) /\
  effectFromTable direction s = Some (getDirectionEffect s) /\
  effectFromTable exchange s = Some (getExchangeEffect s) /\
  effectFromTable operate s = Some (getOperateEffect s) /\
  (forall k : Key, exists bp : BalancePoint,
     In bp balancePoints /\ key bp = k /\
     inlineEffect k s =
       match classifyBand (fieldOf k s) with
       | BandLow => low (effects bp)
       | BandHigh => high (effects bp)
       | BandBalanced => balanced (effects bp)
       end).
Proof.
  split; [| split; [| split; [| split]]].
  - change (getValueEffect s) with (inlineEffect value s).
    rewrite inlineEffect_classify. reflexivity.
  - change (getDirectionEffect s) with (inlineEffect direction s).
    rewrite inlineEffect_classify. reflexivity.
  - change (getExchangeEffect s) with (inlineEffect exchange s).
    rewrite inlineEffect_classify. reflexivity.
  - change (getOperateEffect s) with (inlineEffect operate s).
    rewrite inlineEffect_classify. reflexivity.
  - intro k. rewrite inlineEffect_classify.
    assert (exists bp, specOf k = Some bp /\ key bp = k /\
                       effects bp = inlineTexts k) as (bp & Hs & Hk & He).
    { destruct k; eexists; repeat split; reflexivity. }
    exists bp. split; [| split; [exact Hk |]].
    + apply find_some in Hs. apply Hs.
    + rewrite He. destruct (classifyBand (fieldOf k s)); reflexivity.
Qed.

(** ** Health description *)

Lemma tierText_distinct (t u : Tier) : tierText t = tierText u -> t = u.
Proof. destruct t, u; cbn; intro H; first [reflexivity | discriminate H]. Qed.

(** The tier whose branch of the source fires. *)
Lemma healthText_branch (h : Q) :
  (80 <= h /\ healthText h = tierText Excellent) \/
  (60 <= h /\ h < 80 /\ healthText h = tierText Good) \/
  (40 <= h /\ h < 60 /\ healthText h = tierText Moderate) \/
  (20 <= h /\ h < 40 /\ healthText h = tierText Significant) \/
  (h < 20 /\ healthText h = tierText Critical).
Proof.
  unfold healthText.
  split_ge h 80; [left; split; [exact E | reflexivity] | right].
  split_ge h 60; [left; repeat split; assumption | right].
  split_ge h 40; [left; repeat split; assumption | right].
  split_ge h 20; [left; repeat split; assumption | right].
  split; [exact E2 | reflexivity].
Qed.

(** C6.  A score between 0 and 100 is described by exactly one of five
    tiers, each closed at its lower edge: excellent on [80,100], good on
    [60,80), moderate on [40,60), significant on [20,40), critical on
    [0,20); 80 is excellent, 79 good, 20 significant and 19 critical. *)
Theorem healthText_tiers (h : Q) (L : 0 <= h) (U : h <= 100) :
  (forall t : Tier, healthText h = tierText t <-> tierRange t h) /\
  (exists t : Tier,
     healthText h = tierText t /\
     forall u : Tier, healthText h = tierText u -> u = t) /\
  (healthText 80 = tierText Excellent /\ healthText 79 = tierText Good /\
   healthText 60 = tierText Good /\ healthText 40 = tierText Moderate /\
   healthText 20 = tierText Significant /\ healthText 19 = tierText Critical).
Proof.
  split; [| split; [| repeat split; reflexivity]].
  - intro t.
    destruct (healthText_branch h)
      as [(A & E) | [(A & B & E) | [(A & B & E) | [(A & B & E) | (A & E)]]]];
      rewrite E; split.
    all: try (intro H; apply tierText_distinct in H; subst t; cbn; split; lra).
    all: destruct t; cbn; intros [C D];
      first [reflexivity | exfalso; lra].
  - destruct (healthText_branch h)
      as [(A & E) | [(A & B & E) | [(A & B & E) | [(A & B & E) | (A & E)]]]];
      rewrite E; eexists; (split; [reflexivity |]);
      intros u H; symmetry; apply tierText_distinct; exact H.
Qed.

Lemma healthText_tiers_witness :
  0 <= calculateHealth (mkState 42 0 0 0) /\
  calculateHealth (mkState 42 0 0 0) <= 100 /\
  getHealthDescription (mkState 42 0 0 0) = tierText Good.
Proof.
  assert (L : 0 <= calculateHealth (mkState 42 0 0 0)) by (vm_compute; discriminate).
  assert (U : calculateHealth (mkState 42 0 0 0) <= 100) by (vm_compute; discriminate).
  split; [exact L |]. split; [exact U |].
  apply (proj1 (healthText_tiers _ L U) Good).
  cbn. split; vm_compute; [discriminate | reflexivity].
Defined.

(** ** The buttons *)

Lemma idealForm_zero (s : BalanceState) :
  idealForm s = mkState 0 0 0 0 /\ calculateHealth (idealForm s) == 100.
Proof. split; reflexivity. Qed.

(** [Math.floor] is the integer below: it is [k] exactly on [k, k+1). *)
Lemma Math_floor_eq (a : Q) (k : Z) :
  JS.Math_floor a == inject_Z k <-> inject_Z k <= a /\ a < inject_Z k + 1.
Proof.
  unfold JS.Math_floor. rewrite inject_Z_injective.
  pose proof (Qfloor_le a) as Lo. pose proof (Qlt_floor a) as Hi.
  rewrite inject_Z_plus in Hi. change (inject_Z 1) with 1 in Hi.
  split.
  - intros <-. split; assumption.
  - intros [A B].
    assert (k <= Qfloor a)%Z.
    { rewrite <- (Qfloor_Z k). apply Qfloor_resp_le. exact A. }
    assert (Qfloor a < k + 1)%Z.
    { rewrite Zlt_Qlt, inject_Z_plus. change (inject_Z 1) with 1. lra. }
    lia.
Qed.

Lemma Math_floor_bounds (a : Q) (lo hi : Z) :
  inject_Z lo <= a -> a < inject_Z hi + 1 ->
  inject_Z lo <= JS.Math_floor a /\ JS.Math_floor a <= inject_Z hi.
Proof.
  intros A B. unfold JS.Math_floor.
  pose proof (Qfloor_le a) as Lo.
  rewrite <- !Zle_Qle. split.
  - rewrite <- (Qfloor_Z lo). apply Qfloor_resp_le. exact A.
  - assert (Qfloor a < hi + 1)%Z; [| lia].
    rewrite Zlt_Qlt, inject_Z_plus. change (inject_Z 1) with 1. lra.
Qed.

(** What one draw becomes in the component file. *)
Lemma stressValue_range (r : Q) : isDraw r -> inRange (stressValue r).
Proof.
  intros [A B]. unfold inRange, stressValue.
  destruct (Math_floor_bounds (r * 101) 0 100) as [L U].
  - change (inject_Z 0) with 0. lra.
  - change (inject_Z 100) with 100. lra.
  - change (inject_Z 0) with 0 in L. change (inject_Z 100) with 100 in U.
    split; lra.
Qed.

(** The draws that become [k]: an interval of width 1/101, whatever [k]. *)
Lemma stressValue_preimage (r : Q) (k : Z) :
  stressValue r == inject_Z k <->
  (inject_Z k + 50) / 101 <= r /\ r < (inject_Z k + 51) / 101.
Proof.
  unfold stressValue.
  assert (S : JS.Math_floor (r * 101) - 50 == inject_Z k <->
              JS.Math_floor (r * 101) == inject_Z (k + 50)).
  { rewrite inject_Z_plus. change (inject_Z 50) with 50. split; intro; lra. }
  rewrite S, Math_floor_eq, inject_Z_plus. change (inject_Z 50) with 50.
  unfold Qdiv. change (/ 101) with (1 # 101).
  split; intros [A B]; split; lra.
Qed.

Lemma drawFor_isDraw (k : Z) : (-50 <= k <= 50)%Z -> isDraw (drawFor k).
Proof.
  intros [A B]. rewrite Zle_Qle in A, B.
  change (inject_Z (-50)) with (-50) in A. change (inject_Z 50) with 50 in B.
  unfold isDraw, drawFor, Qdiv. change (/ 202) with (1 # 202). split; lra.
Qed.

Lemma stressValue_drawFor (k : Z) : stressValue (drawFor k) == inject_Z k.
Proof.
  apply stressValue_preimage.
  unfold drawFor, Qdiv. change (/ 202) with (1 # 202).
  change (/ 101) with (1 # 101). split; lra.
Qed.

(** The component file's "Stress Test": the new state is valid for all
    draws, every state with integer fields in the range is reached by some
    draws, and each field is decided by its own draw. *)
Lemma stressTest_component :
  (forall d s, validDraws d -> validState (stressTest d s)) /\
  (forall v d e o : Z,
     (-50 <= v <= 50)%Z -> (-50 <= d <= 50)%Z ->
     (-50 <= e <= 50)%Z -> (-50 <= o <= 50)%Z ->
     forall s, exists dr,
       validDraws dr /\
       stateEq (stressTest dr s)
               (mkState (inject_Z v) (inject_Z d) (inject_Z e) (inject_Z o))) /\
  (forall d s,
     valuePosition (stressTest d s) = stressValue (draw1 d) /\
     directionPosition (stressTest d s) = stressValue (draw2 d) /\
     exchangePosition (stressTest d s) = stressValue (draw3 d) /\
     operatePosition (stressTest d s) = stressValue (draw4 d)).
Proof.
  split; [| split].
  - intros d s (A & B & C & D). unfold validState, stressTest; cbn.
    repeat split; apply stressValue_range; assumption.
  - intros v d e o Hv Hd He Ho s.
    exists (mkDraws (drawFor v) (drawFor d) (drawFor e) (drawFor o)). split.
    + unfold validDraws; cbn. repeat split; apply drawFor_isDraw; assumption.
    + unfold stateEq, stressTest; cbn. repeat split; apply stressValue_drawFor.
  - intros d s. repeat split.
Qed.

(** What one draw becomes in the documentation's listing. *)
Lemma docs_stressValue_range (r : Q) :
  isDraw r ->
  -50 <= DocsListing.stressValue r /\ DocsListing.stressValue r <= 49.
Proof.
  intros [A B]. unfold DocsListing.stressValue.
  destruct (Math_floor_bounds (r * 100 - 50) (-50) 49) as [L U].
  - change (inject_Z (-50)) with (-50). lra.
  - change (inject_Z 49) with 49. lra.
  - change (inject_Z (-50)) with (-50) in L. change (inject_Z 49) with 49 in U.
    split; lra.
Qed.

(** C9.  "Stress Test" as the documentation lists it: whatever the four
    draws, every field of the new state lies between -50 and 49, so the
    upper endpoint 50 of the slider range is never produced; the handler of
    the component file produces it, from the draw 201/202. *)
Theorem docs_stressTest_misses_50 (d : Draws) (s : BalanceState)
    (V : validDraws d) :
  (-50 <= valuePosition (DocsListing.stressTest d s) <= 49 /\
   -50 <= directionPosition (DocsListing.stressTest d s) <= 49 /\
   -50 <= exchangePosition (DocsListing.stressTest d s) <= 49 /\
   -50 <= operatePosition (DocsListing.stressTest d s) <= 49) /\
  (isDraw (201 # 202) /\
   stressValue (201 # 202) == 50 /\
   DocsListing.stressValue (201 # 202) == 49).
Proof.
  destruct V as (A & B & C & D). split.
  - unfold DocsListing.stressTest; cbn.
    repeat split; apply docs_stressValue_range; assumption.
  - split; [split; lra | split; reflexivity].
Qed.

Lemma docs_stressTest_misses_50_witness :
  validDraws (mkDraws (201 # 202) 0 (1 # 2) (999 # 1000)) /\
  valuePosition
    (DocsListing.stressTest (mkDraws (201 # 202) 0 (1 # 2) (999 # 1000))
                            initialState) <= 49.
Proof.
  assert (V : validDraws (mkDraws (201 # 202) 0 (1 # 2) (999 # 1000))).
  { unfold validDraws, isDraw; cbn. repeat split; lra. }
  split; [exact V |].
  exact (proj2 (proj1 (proj1 (docs_stressTest_misses_50 _ initialState V)))).
Defined.

(** * Further properties of the component *)

(** ** Geometry *)

Lemma cmdEqb_true (a b : PathCmd) :
  cmdEqb a b = true <->
  match a, b with
  | MoveTo p, MoveTo q => pointEq p q
  | QuadTo c p, QuadTo d q => pointEq c d /\ pointEq p q
  | _, _ => False
  end.
Proof.
  destruct a, b; cbn; rewrite ?andb_true_iff, ?pointEqb_true;
    first [tauto | split; [discriminate | contradiction]].
Qed.

(** X1.  The picture determines the state: two states draw the same
    diamond path exactly when their four positions are equal. *)
Theorem diamondPath_determines_state (s t : BalanceState) :
  pathEqb (diamondPath s) (diamondPath t) = true <-> stateEq s t.
Proof.
  destruct s as [v d e o], t as [v' d' e' o'].
  unfold stateEq; cbn [valuePosition directionPosition exchangePosition
                       operatePosition].
  cbn [diamondPath pathEqb]. rewrite !andb_true_iff, !cmdEqb_true.
  unfold pointEq; cbn. split.
  - intros ((A1 & A2) & ((B1 & B2) & (B3 & B4)) & ((C1 & C2) & (C3 & C4)) &
            ((D1 & D2) & (D3 & D4)) & _).
    repeat split; lra.
  - intros (A & B & C & D).
    repeat split; try rewrite A; try rewrite B; try rewrite C; try rewrite D;
      reflexivity.
Qed.

(** X2.  On a valid state the diamond stays in the drawing area: every
    vertex and every control point of the path lies in the 800 by 600
    view box, and so does every marker circle around a vertex. *)
Theorem diamond_inside_viewBox (s : BalanceState) (V : validState s) :
  Forall insideViewBox (vertices (diamondPath s)) /\
  Forall insideViewBox (controls (diamondPath s)) /\
  Forall circleInsideViewBox (balancePointMarkers s).
Proof.
  destruct s as [v d e o]. destruct V as ((V1 & V2) & (D1 & D2) & (E1 & E2) & (O1 & O2)).
  cbn in V1, V2, D1, D2, E1, E2, O1, O2.
  repeat split; repeat constructor; cbn; qlra.
Qed.

Lemma diamond_inside_viewBox_witness :
  validState (mkState 50 (-50) 50 (-50)) /\
  Forall circleInsideViewBox (balancePointMarkers (mkState 50 (-50) 50 (-50))).
Proof.
  assert (V : validState (mkState 50 (-50) 50 (-50))).
  { unfold validState, inRange; cbn. repeat split; lra. }
  split; [exact V |].
  exact (proj2 (proj2 (diamond_inside_viewBox _ V))).
Defined.

(** X3.  On a valid state the diamond keeps its orientation: the top
    vertex is at least 155 above the left and right ones, which are at
    least 155 above the bottom one; the left vertex is at least 30 to the
    left of the top and bottom ones, which are at least 30 to the left of
    the right one.  The markers, of radius 16, therefore never touch. *)
Theorem diamond_keeps_orientation (s : BalanceState) (V : validState s) :
  (y (topPoint s) + 155 <= y (leftPoint s) /\
   y (topPoint s) + 155 <= y (rightPoint s) /\
   y (leftPoint s) + 155 <= y (bottomPoint s) /\
   y (rightPoint s) + 155 <= y (bottomPoint s)) /\
  (x (leftPoint s) + 30 <= x (topPoint s) /\
   x (leftPoint s) + 30 <= x (bottomPoint s) /\
   x (topPoint s) + 30 <= x (rightPoint s) /\
   x (bottomPoint s) + 30 <= x (rightPoint s)).
Proof.
  destruct s as [v d e o]. destruct V as ((V1 & V2) & (D1 & D2) & (E1 & E2) & (O1 & O2)).
  cbn in V1, V2, D1, D2, E1, E2, O1, O2.
  cbn. repeat split; qlra.
Qed.

Lemma diamond_keeps_orientation_witness :
  validState (mkState (-50) 50 (-50) 50) /\
  x (leftPoint (mkState (-50) 50 (-50) 50)) + 30 <=
  x (topPoint (mkState (-50) 50 (-50) 50)).
Proof.
  assert (V : validState (mkState (-50) 50 (-50) 50)).
  { unfold validState, inRange; cbn. repeat split; lra. }
  split; [exact V |].
  exact (proj1 (proj2 (diamond_keeps_orientation _ V))).
Defined.

(** X4.  A slider moves its own vertex and changes its own effect text
    only: after the setter of one field, the vertices and the effect texts
    of the three other fields are what they were. *)
Theorem slider_moves_one_vertex (k k' : Key) (v : Q) (s : BalanceState)
    (D : k <> k') :
  vertexOf k' (setPosition k v s) = vertexOf k' s /\
  inlineEffect k' (setPosition k v s) = inlineEffect k' s /\
  fieldOf k' (setPosition k v s) = fieldOf k' s /\
  fieldOf k (setPosition k v s) = v /\
  (forall (w : Q) (t : BalanceState),
     pointEq (vertexOf k (setPosition k v s)) (vertexOf k (setPosition k w t))
     <-> v == w).
Proof.
  split; [| split; [| split; [| split]]].
  1-4: destruct k, k'; try (exfalso; apply D; reflexivity); reflexivity.
  intros w t. unfold pointEq.
  destruct k; cbn; (split; [intros [H1 H2] | intro H; split]); qlra.
Qed.

Lemma slider_moves_one_vertex_witness :
  value <> exchange /\
  vertexOf exchange (setPosition value 40 (mkState 0 0 7 0)) =
  vertexOf exchange (mkState 0 0 7 0).
Proof.
  assert (D : value <> exchange) by discriminate.
  split; [exact D |].
  exact (proj1 (slider_moves_one_vertex value exchange 40 (mkState 0 0 7 0) D)).
Defined.

(** ** Integrity score *)

Lemma Qabs_cases (a : Q) :
  (0 <= a /\ Qabs a == a) \/ (a <= 0 /\ Qabs a == - a).
Proof.
  destruct (Qlt_le_dec a 0) as [L | L].
  - right. split; [lra | apply Qabs_neg; lra].
  - left. split; [exact L | apply Qabs_pos; exact L].
Qed.

(** Replace every absolute value by a variable with its two cases. *)
Ltac abs_cases :=
  repeat match goal with
         | |- context [Qabs ?a] =>
             let C := fresh "C" in
             let q := fresh "q" in
             pose proof (Qabs_cases a) as C;
             set (q := Qabs a) in *; clearbody q;
             destruct C as [[? ?] | [? ?]]
         | H : context [Qabs ?a] |- _ =>
             let C := fresh "C" in
             let q := fresh "q" in
             pose proof (Qabs_cases a) as C;
             set (q := Qabs a) in *; clearbody q;
             destruct C as [[? ?] | [? ?]]
         end.

Lemma Qabs_inRange (a : Q) : inRange a -> Qabs a <= 50.
Proof. unfold inRange. intros [L U]. abs_cases; lra. Qed.

(** X5.  On a valid state the score is 0 exactly when every slider is at
    an end of its range. *)
Theorem calculateHealth_zero (s : BalanceState) (V : validState s) :
  calculateHealth s == 0 <->
  Qabs (valuePosition s) == 50 /\ Qabs (directionPosition s) == 50 /\
  Qabs (exchangePosition s) == 50 /\ Qabs (operatePosition s) == 50.
Proof.
  pose proof (sumAbs_valid s V) as B.
  destruct V as (Hv & Hd & He & Ho).
  apply Qabs_inRange in Hv, Hd, He, Ho.
  destruct (calculateHealth_cases s) as [[L E] | [L E]]; [| exfalso; lra].
  rewrite E. unfold sumAbs in *.
  split; [intro H; repeat split; qlra | intros (A1 & A2 & A3 & A4); qlra].
Qed.

Lemma calculateHealth_zero_witness :
  validState (mkState 50 (-50) (-50) 50) /\
  calculateHealth (mkState 50 (-50) (-50) 50) == 0.
Proof.
  assert (V : validState (mkState 50 (-50) (-50) 50)).
  { unfold validState, inRange; cbn. repeat split; lra. }
  split; [exact V |].
  apply (proj2 (calculateHealth_zero _ V)). repeat split; reflexivity.
Defined.

(** X6.  Moving one slider changes the score by at most half the distance
    moved, whatever the state. *)
Theorem calculateHealth_slider_sensitivity
    (k : Key) (v : Q) (s : BalanceState) :
  Qabs (calculateHealth (setPosition k v s) - calculateHealth s)
  <= Qabs (v - fieldOf k s) / 2.
Proof.
  destruct (calculateHealth_cases s) as [[L E] | [L E]];
  destruct (calculateHealth_cases (setPosition k v s)) as [[L' E'] | [L' E']];
    rewrite E, E'; clear E E';
    destruct s as [a b c d]; destruct k;
    unfold sumAbs in *;
    cbn [setPosition fieldOf valuePosition directionPosition
         exchangePosition operatePosition] in *;
    abs_cases; qlra.
Qed.

Lemma calculateHealth_valid (s : BalanceState) :
  validState s -> calculateHealth s == 100 - sumAbs s / 2.
Proof.
  intro V. pose proof (sumAbs_valid s V).
  destruct (calculateHealth_cases s) as [[L E] | [L E]]; qlra.
Qed.

Lemma inject_Z_minus (a b : Z) : inject_Z (a - b) == inject_Z a - inject_Z b.
Proof.
  unfold Z.sub. rewrite inject_Z_plus, inject_Z_opp. reflexivity.
Qed.

Lemma isInteger_abs (v : Q) :
  inRange v -> isInteger v ->
  exists m : Z, (0 <= m <= 50)%Z /\ Qabs v == inject_Z m.
Proof.
  intros [L U] [z E]. exists (Z.abs z).
  assert (B : (-50 <= z <= 50)%Z).
  { rewrite E in L, U. rewrite !Zle_Qle. exact (conj L U). }
  split; [lia |]. rewrite E. reflexivity.
Qed.

(** A valid integer state whose deviations add up to [m]. *)
Lemma sumAbs_attained (m : Z) :
  (0 <= m <= 200)%Z ->
  exists s : BalanceState,
    validState s /\ integerState s /\ sumAbs s == inject_Z m.
Proof.
  intro B.
  set (a := Z.min 50 m). set (b := Z.min 50 (m - a)).
  set (c := Z.min 50 (m - a - b)). set (d := (m - a - b - c)%Z).
  assert (Ba : (0 <= a <= 50)%Z) by (unfold a; lia).
  assert (Bb : (0 <= b <= 50)%Z) by (unfold b, a; lia).
  assert (Bc : (0 <= c <= 50)%Z) by (unfold c, b, a; lia).
  assert (Bd : (0 <= d <= 50)%Z) by (unfold d, c, b, a; lia).
  assert (R : forall z : Z, (0 <= z <= 50)%Z ->
              inRange (inject_Z z) /\ Qabs (inject_Z z) == inject_Z z).
  { intros z [L U]. split.
    - unfold inRange. split.
      + apply Qle_trans with (inject_Z 0); [discriminate | rewrite <- Zle_Qle; exact L].
      + change 50 with (inject_Z 50). rewrite <- Zle_Qle. exact U.
    - apply Qabs_pos. change 0 with (inject_Z 0). rewrite <- Zle_Qle. exact L. }
  exists (mkState (inject_Z a) (inject_Z b) (inject_Z c) (inject_Z d)).
  split; [| split].
  - unfold validState; cbn. repeat split; apply R; assumption.
  - unfold integerState; cbn. repeat split; eexists; reflexivity.
  - unfold sumAbs; cbn.
    rewrite (proj2 (R a Ba)), (proj2 (R b Bb)), (proj2 (R c Bc)), (proj2 (R d Bd)).
    rewrite <- !inject_Z_plus. apply inject_Z_injective. unfold d. lia.
Qed.

(** X7.  With the sliders on integers the score moves in half points: a
    valid integer state scores n/2 for an integer n between 0 and 200, and
    every such n/2 is the score of some valid integer state. *)
Theorem calculateHealth_half_points :
  (forall s : BalanceState,
     validState s -> integerState s ->
     exists n : Z, (0 <= n <= 200)%Z /\ calculateHealth s == inject_Z n / 2) /\
  (forall n : Z,
     (0 <= n <= 200)%Z ->
     exists s : BalanceState,
       validState s /\ integerState s /\ calculateHealth s == inject_Z n / 2).
Proof.
  split.
  - intros s V I.
    pose proof (calculateHealth_valid s V) as E.
    destruct V as (Vv & Vd & Ve & Vo). destruct I as (Iv & Id & Ie & Io).
    destruct (isInteger_abs _ Vv Iv) as (a & Ba & Ea).
    destruct (isInteger_abs _ Vd Id) as (b & Bb & Eb).
    destruct (isInteger_abs _ Ve Ie) as (c & Bc & Ec).
    destruct (isInteger_abs _ Vo Io) as (d & Bd & Ed).
    exists (200 - (a + b + c + d))%Z. split; [lia |].
    rewrite E. unfold sumAbs. rewrite Ea, Eb, Ec, Ed.
    rewrite inject_Z_minus, !inject_Z_plus.
    change (inject_Z 200) with 200. qlra.
  - intros n B.
    destruct (sumAbs_attained (200 - n)) as (s & V & I & E); [lia |].
    exists s. split; [exact V |]. split; [exact I |].
    rewrite (calculateHealth_valid s V), E, inject_Z_minus. change (inject_Z 200) with 200. qlra.
Qed.

Lemma calculateHealth_half_points_witness :
  exists s : BalanceState,
    validState s /\ integerState s /\ calculateHealth s == inject_Z 159 / 2.
Proof.
  apply (proj2 calculateHealth_half_points 159%Z). lia.
Defined.

(** ** Label and description *)

Lemma floor_ge (a : Q) (k : Z) :
  inject_Z k <= inject_Z (Qfloor a) <-> inject_Z k <= a.
Proof.
  split; intro H.
  - apply Qle_trans with (inject_Z (Qfloor a)); [exact H | apply Qfloor_le].
  - rewrite <- Zle_Qle. rewrite <- (Qfloor_Z k). apply Qfloor_resp_le. exact H.
Qed.

Lemma ge_floor (a : Q) (k : Z) :
  JS.ge (inject_Z (Qfloor a)) (inject_Z k) = JS.ge a (inject_Z k).
Proof.
  apply eq_true_iff_eq. rewrite !ge_true. apply floor_ge.
Qed.

(** The thresholds of the description are integers, so the description of
    a number is that of the integer below it. *)
Lemma healthText_floor (a : Q) :
  healthText (inject_Z (Qfloor a)) = healthText a.
Proof.
  unfold healthText.
  change 80 with (inject_Z 80). change 60 with (inject_Z 60).
  change 40 with (inject_Z 40). change 20 with (inject_Z 20).
  rewrite !ge_floor. reflexivity.
Qed.

Lemma nearestInteger_near (a : Q) :
  inject_Z (nearestInteger a) - (1 # 2) <= a /\
  a < inject_Z (nearestInteger a) + (1 # 2).
Proof.
  unfold nearestInteger.
  pose proof (Qfloor_le (a + (1 # 2))) as L.
  pose proof (Qlt_floor (a + (1 # 2))) as U.
  rewrite inject_Z_plus in U. change (inject_Z 1) with 1 in U.
  split; lra.
Qed.

Lemma healthText_cases (h : Q) (t : Tier) :
  healthText h = tierText t ->
  match t with
  | Excellent => 80 <= h
  | Good => 60 <= h /\ h < 80
  | Moderate => 40 <= h /\ h < 60
  | Significant => 20 <= h /\ h < 40
  | Critical => h < 20
  end.
Proof.
  intro H.
  destruct (healthText_branch h)
    as [(A & E) | [(A & B & E) | [(A & B & E) | [(A & B & E) | (A & E)]]]];
    rewrite E in H; apply tierText_distinct in H; subst t;
    first [exact A | exact (conj A B)].
Qed.

Lemma healthText_tier (h : Q) : exists t : Tier, healthText h = tierText t.
Proof.
  destruct (healthText_branch h)
    as [(A & E) | [(A & B & E) | [(A & B & E) | [(A & B & E) | (A & E)]]]];
    rewrite E; eexists; reflexivity.
Qed.

(** X8.  The label shows the integer nearest to the score, halves rounded
    up, between 0 and 100.  The description is chosen from the score
    itself, so the two disagree about the tier exactly when the score is
    within half a point below 80, 60, 40 or 20: the state (41,0,0,0),
    scoring 79.5, is labelled 80% and described as good. *)
Theorem label_and_description (s : BalanceState) :
  let h := calculateHealth s in
  (inject_Z (shownPercent s) - (1 # 2) <= h /\
   h < inject_Z (shownPercent s) + (1 # 2)) /\
  (0 <= shownPercent s <= 100)%Z /\
  integrityLabel s =
    ("Structural Integrity: " ++
     NilZero.string_of_int (Z.to_int (shownPercent s)) ++ "%")%string /\
  (healthText (inject_Z (shownPercent s)) <> getHealthDescription s <->
   (159 # 2 <= h /\ h < 80) \/ (119 # 2 <= h /\ h < 60) \/
   (79 # 2 <= h /\ h < 40) \/ (39 # 2 <= h /\ h < 20)) /\
  (integrityLabel (mkState 41 0 0 0) = "Structural Integrity: 80%"%string /\
   getHealthDescription (mkState 41 0 0 0) = tierText Good).
Proof.
  cbv zeta. pose proof (calculateHealth_bounds_any s) as [B0 B100].
  pose proof (nearestInteger_near (calculateHealth s)) as [N1 N2].
  fold (shownPercent s) in N1, N2.
  split; [exact (conj N1 N2) |].
  split; [| split; [| split]].
  - unfold shownPercent, nearestInteger. split.
    + rewrite <- (Qfloor_Z 0). apply Qfloor_resp_le.
      change (inject_Z 0) with 0. lra.
    + apply Z.le_trans with (Qfloor (201 # 2)).
      * apply Qfloor_resp_le. lra.
      * vm_compute. discriminate.
  - unfold integrityLabel, toFixed0.
    rewrite (proj2 (lt_false (calculateHealth s) 0) B0). reflexivity.
  - unfold getHealthDescription, shownPercent, nearestInteger; cbv zeta.
    rewrite healthText_floor.
    set (h := calculateHealth s) in *. clearbody h.
    destruct (healthText_tier (h + (1 # 2))) as [t1 E1].
    destruct (healthText_tier h) as [t2 E2].
    pose proof (healthText_cases _ _ E1) as C1.
    pose proof (healthText_cases _ _ E2) as C2.
    rewrite E1, E2. clear E1 E2 N1 N2.
    destruct t1, t2; cbn in C1, C2;
      repeat match goal with A : _ /\ _ |- _ => destruct A end;
      (split;
       [ intro Hne;
         first [ exfalso; apply Hne; reflexivity
               | exfalso; lra
               | left; split; lra
               | right; left; split; lra
               | right; right; left; split; lra
               | right; right; right; split; lra ]
       | intros [[? ?] | [[? ?] | [[? ?] | [? ?]]]];
         first [ exfalso; lra
               | intro K; apply tierText_distinct in K; discriminate K ] ]).
  - split; vm_compute; reflexivity.
Qed.

Lemma description_of_score (s : BalanceState) (t : Tier) :
  getHealthDescription s = tierText t ->
  match t with
  | Excellent => 80 <= calculateHealth s
  | Good => 60 <= calculateHealth s /\ calculateHealth s < 80
  | Moderate => 40 <= calculateHealth s /\ calculateHealth s < 60
  | Significant => 20 <= calculateHealth s /\ calculateHealth s < 40
  | Critical => calculateHealth s < 20
  end.
Proof. apply healthText_cases. Qed.

(** X9.  More imbalance never reads better: of two states, the one with
    the larger sum of absolute deviations has a description of the same or
    a worse tier. *)
Theorem description_monotone (s t : BalanceState) (ts tt : Tier)
    (L : sumAbs s <= sumAbs t)
    (Ds : getHealthDescription s = tierText ts)
    (Dt : getHealthDescription t = tierText tt) :
  (tierRank tt <= tierRank ts)%nat.
Proof.
  pose proof (calculateHealth_antitone s t L) as A.
  apply description_of_score in Ds, Dt.
  destruct ts, tt; cbn in *;
    repeat match goal with H : _ /\ _ |- _ => destruct H end;
    first [lia | exfalso; lra].
Qed.

Lemma description_monotone_witness :
  sumAbs (mkState 10 0 0 0) <= sumAbs (mkState 50 50 (-50) 40) /\
  (tierRank Critical <= tierRank Excellent)%nat.
Proof.
  assert (L : sumAbs (mkState 10 0 0 0) <= sumAbs (mkState 50 50 (-50) 40))
    by (vm_compute; discriminate).
  split; [exact L |].
  exact (description_monotone (mkState 10 0 0 0) (mkState 50 50 (-50) 40)
           Excellent Critical L eq_refl eq_refl).
Defined.

Lemma Qabs_zero_of_eqb (v : Q) : Qeq_bool v 0 = true -> Qabs v == 0.
Proof. intro H. apply Qeq_bool_iff in H. rewrite H. reflexivity. Qed.

(** X10.  Few sliders, mild verdict: on a valid state every slider off the
    centre costs at most 25 points, so with at most one slider off the
    centre the description is excellent or good, and the critical
    description needs every slider more than 10 away from the centre. *)
Theorem few_sliders_mild_description (s : BalanceState) (V : validState s) :
  100 - 25 * inject_Z (Z.of_nat (offCentre s)) <= calculateHealth s /\
  ((offCentre s <= 1)%nat ->
   getHealthDescription s = tierText Excellent \/
   getHealthDescription s = tierText Good) /\
  (getHealthDescription s = tierText Critical ->
   10 < Qabs (valuePosition s) /\ 10 < Qabs (directionPosition s) /\
   10 < Qabs (exchangePosition s) /\ 10 < Qabs (operatePosition s)).
Proof.
  pose proof (calculateHealth_valid s V) as E.
  destruct V as (Hv & Hd & He & Ho).
  apply Qabs_inRange in Hv, Hd, He, Ho.
  assert (B : 100 - 25 * inject_Z (Z.of_nat (offCentre s)) <= calculateHealth s).
  { rewrite E. unfold sumAbs, offCentre. cbn [filter].
    destruct (Qeq_bool (valuePosition s) 0) eqn:Zv;
    destruct (Qeq_bool (directionPosition s) 0) eqn:Zd;
    destruct (Qeq_bool (exchangePosition s) 0) eqn:Ze;
    destruct (Qeq_bool (operatePosition s) 0) eqn:Zo;
    cbn [negb List.length];
    try (apply Qabs_zero_of_eqb in Zv); try (apply Qabs_zero_of_eqb in Zd);
    try (apply Qabs_zero_of_eqb in Ze); try (apply Qabs_zero_of_eqb in Zo);
    match goal with
    | |- context [inject_Z (Z.of_nat ?n)] =>
        let z := eval vm_compute in (inject_Z (Z.of_nat n)) in
        change (inject_Z (Z.of_nat n)) with z
    end; qlra. }
  split; [exact B |]. split.
  - intro F.
    assert (75 <= calculateHealth s).
    { assert (Z.of_nat (offCentre s) <= 1)%Z as G by lia.
      rewrite Zle_Qle in G. change (inject_Z 1) with 1 in G. lra. }
    unfold getHealthDescription; cbv zeta.
    destruct (healthText_branch (calculateHealth s))
      as [(A1 & T) | [(A1 & A2 & T) | [(A1 & A2 & T) | [(A1 & A2 & T) | (A1 & T)]]]];
      first [left; exact T | right; exact T | exfalso; lra].
  - intro C. apply description_of_score in C. cbn in C.
    rewrite E in C. unfold sumAbs in C. repeat split; qlra.
Qed.

Lemma few_sliders_mild_description_witness :
  validState (mkState 0 0 (-50) 0) /\
  (getHealthDescription (mkState 0 0 (-50) 0) = tierText Excellent \/
   getHealthDescription (mkState 0 0 (-50) 0) = tierText Good).
Proof.
  assert (V : validState (mkState 0 0 (-50) 0)).
  { unfold validState, inRange; cbn. repeat split; lra. }
  split; [exact V |].
  apply (proj1 (proj2 (few_sliders_mild_description _ V))).
  vm_compute. apply le_n.
Defined.

(** ** Effect texts against the score *)

Lemma inlineEffect_band (k : Key) (s : BalanceState) (b : Band) :
  inlineEffect k s = bandText (inlineTexts k) b <-> bandRange b (fieldOf k s).
Proof.
  rewrite inlineEffect_classify, <- classifyBand_range. split.
  - apply inlineTexts_distinct.
  - intros ->. reflexivity.
Qed.

Lemma band_of_field (k : Key) (s : BalanceState) :
  inlineEffect k s = balanced (inlineTexts k) \/ 30 < Qabs (fieldOf k s).
Proof.
  destruct (classifyBand (fieldOf k s)) eqn:B.
  - right. apply classifyBand_range in B. cbn in B. abs_cases; lra.
  - left. apply (inlineEffect_band k s BandBalanced).
    apply classifyBand_range. exact B.
  - right. apply classifyBand_range in B. cbn in B. abs_cases; lra.
Qed.

Lemma sumAbs_two_fields (k k' : Key) (s : BalanceState) :
  k <> k' -> Qabs (fieldOf k s) + Qabs (fieldOf k' s) <= sumAbs s.
Proof.
  intro D. unfold sumAbs.
  pose proof (Qabs_nonneg (valuePosition s)).
  pose proof (Qabs_nonneg (directionPosition s)).
  pose proof (Qabs_nonneg (exchangePosition s)).
  pose proof (Qabs_nonneg (operatePosition s)).
  destruct k, k'; try (exfalso; apply D; reflexivity); cbn [fieldOf]; lra.
Qed.

(** X11.  The effect texts and the description agree in the large: when
    all four effect texts are the balanced ones the score is at least 40,
    so the description is never the significant or the critical one; and
    when the description is the excellent one, at most one effect text is
    not the balanced one. *)
Theorem effects_against_description (s : BalanceState) :
  ((forall k : Key, inlineEffect k s = balanced (inlineTexts k)) ->
   40 <= calculateHealth s /\
   getHealthDescription s <> tierText Significant /\
   getHealthDescription s <> tierText Critical) /\
  (getHealthDescription s = tierText Excellent ->
   forall k k' : Key, k <> k' ->
     inlineEffect k s = balanced (inlineTexts k) \/
     inlineEffect k' s = balanced (inlineTexts k')).
Proof.
  split.
  - intro A.
    assert (B : forall k, Qabs (fieldOf k s) <= 30).
    { intro k. pose proof (proj1 (inlineEffect_band k s BandBalanced) (A k)) as R.
      cbn in R. destruct R. abs_cases; lra. }
    pose proof (B value) as Bv. pose proof (B direction) as Bd.
    pose proof (B exchange) as Be. pose proof (B operate) as Bo.
    cbn [fieldOf] in Bv, Bd, Be, Bo.
    assert (G : 40 <= calculateHealth s).
    { destruct (calculateHealth_cases s) as [[L E] | [L E]];
        unfold sumAbs in *; qlra. }
    split; [exact G |].
    split; intro C; apply description_of_score in C; cbn in C;
      first [lra | destruct C; lra].
  - intros C k k' D. apply description_of_score in C. cbn in C.
    destruct (band_of_field k s) as [Bk | Bk]; [left; exact Bk |].
    destruct (band_of_field k' s) as [Bk' | Bk']; [right; exact Bk' |].
    exfalso. pose proof (sumAbs_two_fields k k' s D) as T.
    destruct (calculateHealth_cases s) as [[L E] | [L E]]; qlra.
Qed.

Lemma effects_against_description_witness :
  getHealthDescription (mkState 35 0 0 0) = tierText Excellent /\
  (inlineEffect value (mkState 35 0 0 0) = balanced (inlineTexts value) \/
   inlineEffect operate (mkState 35 0 0 0) = balanced (inlineTexts operate)).
Proof.
  assert (C : getHealthDescription (mkState 35 0 0 0) = tierText Excellent)
    by reflexivity.
  assert (D : value <> operate) by discriminate.
  split; [exact C |].
  exact (proj2 (effects_against_description (mkState 35 0 0 0)) C value operate D).
Defined.

(** ** The data table *)

(** X12.  [balancePoints] holds one record for each of the four keys, and
    no effect text occurs twice in it: a text names its record and its
    band. *)
Theorem balancePoints_one_record_per_key :
  NoDup (map key balancePoints) /\
  (forall k : Key, In k (map key balancePoints)) /\
  (forall k : Key, exists bp : BalancePoint,
     specOf k = Some bp /\ key bp = k /\
     forall bq : BalancePoint, In bq balancePoints -> key bq = k -> bq = bp) /\
  (forall (bp bq : BalancePoint) (b c : Band),
     In bp balancePoints -> In bq balancePoints ->
     bandText (effects bp) b = bandText (effects bq) c ->
     bp = bq /\ b = c).
Proof.
  split; [| split; [| split]].
  - cbn. repeat constructor; cbn; intuition discriminate.
  - intro k. destruct k; cbn; tauto.
  - intro k. destruct k; eexists; (split; [reflexivity |]);
      (split; [reflexivity |]);
      intros bq [<- | [<- | [<- | [<- | []]]]] K;
      first [reflexivity | discriminate K].
  - intros bp bq b c [<- | [<- | [<- | [<- | []]]]]
                     [<- | [<- | [<- | [<- | []]]]];
      destruct b, c; cbn; intro H;
      first [split; reflexivity | discriminate H].
Qed.

(** ** The integrity bar *)

(** X13.  The white cover of the integrity bar always fits the bar: its
    left margin and its width are percentages between 0 and 100 that add
    up to 100, and the margin is the score. *)
Theorem gaugeStyle_fits (s : BalanceState) :
  marginLeft (gaugeStyle s) + width (gaugeStyle s) == 100 /\
  (0 <= marginLeft (gaugeStyle s) /\ marginLeft (gaugeStyle s) <= 100) /\
  (0 <= width (gaugeStyle s) /\ width (gaugeStyle s) <= 100) /\
  (width (gaugeStyle s) == 0 <-> stateEq s (mkState 0 0 0 0)).
Proof.
  pose proof (calculateHealth_bounds_any s) as [L U].
  pose proof (calculateHealth_100 s) as Z.
  unfold gaugeStyle; cbn [marginLeft width].
  split; [lra |]. split; [split; lra |]. split; [split; lra |].
  split; intro H.
  - apply Z. lra.
  - apply Z in H. lra.
Qed.

(** ** The buttons and the sliders *)

Lemma stressValue_isInteger (r : Q) : isInteger (stressValue r).
Proof.
  exists (Qfloor (r * 101) - 50)%Z. unfold stressValue, JS.Math_floor.
  rewrite inject_Z_minus. reflexivity.
Qed.

Lemma target_in_range (v : Q) :
  inRange v -> isInteger v ->
  exists z : Z, (-50 <= z <= 50)%Z /\ v == inject_Z z.
Proof.
  intros [L U] [z E]. exists z. split; [| exact E].
  rewrite E in L, U. rewrite !Zle_Qle. exact (conj L U).
Qed.

(** X14.  "Stress Test" of the component file is safe: whatever the four
    draws, the new state has every position on an integer between -50 and
    50, and it does not depend on the state before the click. *)
Theorem stressTest_valid_integer (d : Draws) (s : BalanceState)
    (V : validDraws d) :
  validState (stressTest d s) /\ integerState (stressTest d s) /\
  forall t : BalanceState, stressTest d t = stressTest d s.
Proof.
  destruct V as (A & B & C & D). split; [| split].
  - unfold validState, stressTest; cbn.
    repeat split; apply stressValue_range; assumption.
  - unfold integerState, stressTest; cbn.
    repeat split; apply stressValue_isInteger.
  - reflexivity.
Qed.

Lemma stressTest_valid_integer_witness :
  validDraws (mkDraws 0 (1 # 3) (201 # 202) (1 # 2)) /\
  validState (stressTest (mkDraws 0 (1 # 3) (201 # 202) (1 # 2)) initialState).
Proof.
  assert (V : validDraws (mkDraws 0 (1 # 3) (201 # 202) (1 # 2))).
  { unfold validDraws, isDraw; cbn. repeat split; lra. }
  split; [exact V |].
  exact (proj1 (stressTest_valid_integer _ initialState V)).
Defined.



Lemma handle_keeps_valid (ev : Event) (s : BalanceState) :
  eventOk ev -> validState s -> integerState s ->
  validState (handle ev s) /\ integerState (handle ev s).
Proof.
  destruct ev as [k z | | d]; cbn [eventOk handle]; intros Ok V I.
  - assert (R : inRange (inject_Z z)).
    { destruct Ok as [L U]. rewrite Zle_Qle in L, U. exact (conj L U). }
    assert (Z : isInteger (inject_Z z)) by (exists z; reflexivity).
    destruct V as (Vv & Vd & Ve & Vo). destruct I as (Iv & Id & Ie & Io).
    destruct k; (split; [unfold validState | unfold integerState]);
      cbn [setPosition valuePosition directionPosition exchangePosition
           operatePosition];
      refine (conj _ (conj _ (conj _ _))); assumption.
  - split.
    + unfold validState, inRange; cbn. repeat split; lra.
    + unfold integerState; cbn. repeat split; exists 0%Z; reflexivity.
  - destruct Ok as (A & B & C & D). split.
    + unfold validState, stressTest; cbn.
      repeat split; apply stressValue_range; assumption.
    + unfold integerState, stressTest; cbn.
      repeat split; apply stressValue_isInteger.
Qed.

Lemma run_keeps_valid (evs : list Event) :
  Forall eventOk evs ->
  forall s : BalanceState,
    validState s -> integerState s ->
    validState (run evs s) /\ integerState (run evs s).
Proof.
  induction 1 as [| ev evs Ok _ IH]; intros s V I.
  - exact (conj V I).
  - cbn. destruct (handle_keeps_valid ev s Ok V I) as [V' I'].
    apply IH; assumption.
Qed.

(** X16.  The states a user can reach are the valid integer states: after
    any sequence of slider moves and button clicks from the initial state
    every position is an integer between -50 and 50, and every such state
    is reached by four slider moves. *)
Theorem reachable_states :
  (forall evs : list Event,
     Forall eventOk evs ->
     validState (run evs initialState) /\
     integerState (run evs initialState)) /\
  (forall target : BalanceState,
     validState target -> integerState target ->
     exists evs : list Event,
       Forall eventOk evs /\ stateEq (run evs initialState) target).
Proof.
  split.
  - intros evs Ok. apply run_keeps_valid; [exact Ok | |].
    + unfold validState, inRange; cbn. repeat split; lra.
    + unfold integerState; cbn. repeat split; exists 0%Z; reflexivity.
  - intros target (Vv & Vd & Ve & Vo) (Iv & Id & Ie & Io).
    destruct (target_in_range _ Vv Iv) as (a & Ba & Ea).
    destruct (target_in_range _ Vd Id) as (b & Bb & Eb).
    destruct (target_in_range _ Ve Ie) as (c & Bc & Ec).
    destruct (target_in_range _ Vo Io) as (e & Be & Ee).
    exists [SliderChange value a; SliderChange direction b;
            SliderChange exchange c; SliderChange operate e].
    split.
    + repeat (apply Forall_cons; [assumption |]). apply Forall_nil.
    + unfold stateEq; cbn.
      refine (conj _ (conj _ (conj _ _))); symmetry; assumption.
Qed.

Lemma reachable_states_witness :
  Forall eventOk
    [SliderChange value 41; StressTestClick (mkDraws 0 0 (1 # 2) (1 # 2));
     SliderChange operate (-50); IdealFormClick; SliderChange direction 12] /\
  validState
    (run [SliderChange value 41; StressTestClick (mkDraws 0 0 (1 # 2) (1 # 2));
          SliderChange operate (-50); IdealFormClick; SliderChange direction 12]
         initialState).
Proof.
  assert (Ok : Forall eventOk
    [SliderChange value 41; StressTestClick (mkDraws 0 0 (1 # 2) (1 # 2));
     SliderChange operate (-50); IdealFormClick; SliderChange direction 12]).
  { repeat (apply Forall_cons;
            [ first [ exact I | cbn; lia
                    | unfold eventOk, validDraws, isDraw; cbn; repeat split; lra ]
            |]).
    apply Forall_nil. }
  split; [exact Ok |].
  exact (proj1 (proj1 reachable_states _ Ok)).
Defined.


